(** * GNATColl LZMA bindings: the build-configuration script [lzma/setup.py]

    A shallow embedding of the class [GNATCollLZMA] of [lzma/setup.py]
    (methods [update_config] and [variants]) and the properties of its
    configuration derivation and variant planning.

    Python objects are modelled as follows.
    - [config.data], a [dict], is a [gmap string value]; a sub-group such as
      [config.data['gprbuild']] is a nested [Dict].
    - [str] is [string]; what [fd.read()] returns for a file opened in mode
      ['rb'] is a [list byte].
    - The [config] object is shared and mutated in place, and an exception
      leaves the mutations done so far in place: the methods run in a state
      and exception monad [M] over a [World] that holds the one [config]
      object, the files [open] can see and the lines given to [logging]. *)

From Stdlib Require Import Strings.Ascii Strings.Byte.
From stdpp Require Import gmap strings list fin_maps.

Open Scope string_scope.

(** ** Values, configuration, world *)

(** What a key of [config.data] can be bound to in this program. *)
#[warnings="-register-all"]
Inductive value :=
| Str (s : string)
| Bytes (b : list byte)
| StrList (l : list string)
| Dict (d : gmap string value).

(** The [Config] object: the attributes [update_config] and [variants] use. *)
Record Config := mkConfig {
  source_dir : string;
  data : gmap string value
}.

(** The namespace [argparse] hands to [update_config]: [--disable-shared]
    stores [False] in [enable_shared] (default [True]), [--debug] stores
    [True] in [debug] (default [False]). *)
Record Args := mkArgs {
  enable_shared : bool;
  debug : bool
}.

(** A path of the file system, as [open] finds it. *)
Inductive file :=
| Readable (content : list byte)
| Unreadable.

Record World := mkWorld {
  config : Config;
  files : gmap string file;
  log : list string
}.

Inductive errno := ENOENT | EACCES.

Inductive exn :=
| KeyError (k : string)
| TypeError
| IOError (e : errno)
| NotModelled.

(** ** The state and exception monad *)

Definition M (A : Type) : Type := World → (exn + A) * World.

Definition ret {A} (a : A) : M A := λ w, (inr a, w).

Definition raise {A} (e : exn) : M A := λ w, (inl e, w).

Definition bind {A B} (m : M A) (k : A → M B) : M B :=
  λ w, match m w with
       | (inl e, w') => (inl e, w')
       | (inr a, w') => k a w'
       end.

Declare Scope py_scope.
Delimit Scope py_scope with py.
Notation "'do' x <- m 'in' k" := (bind m (λ x, k))
  (at level 10, x name, m at level 100, k at level 200,
   format "'[v' 'do'  x  <-  m  'in' '/' k ']'") : py_scope.
Notation "'exec' m 'in' k" := (bind m (λ _, k))
  (at level 10, m at level 100, k at level 200,
   format "'[v' 'exec'  m  'in' '/' k ']'") : py_scope.
Open Scope py_scope.

Definition get_config : M Config := λ w, (inr (config w), w).

Definition put_data (d : gmap string value) : M unit :=
  λ w, (inr tt,
        mkWorld (mkConfig (source_dir (config w)) d) (files w) (log w)).

(** The outcome and the final world of a run. *)
Definition outcome {A} (r : (exn + A) * World) : exn + A := fst r.
Definition final {A} (r : (exn + A) * World) : World := snd r.

(** ** Python primitives *)

(** [d[k]] on a dict. *)
Definition getitem (d : gmap string value) (k : string) : M value :=
  match d !! k with
  | Some v => ret v
  | None => raise (KeyError k)
  end.

(** [v[k]] on a value: only a dict can be indexed by a string. *)
Definition getitem_value (v : value) (k : string) : M value :=
  match v with
  | Dict d => getitem d k
  | _ => raise TypeError
  end.

(** [sep.join(v)] for a list of strings. *)
Definition join (sep : string) (v : value) : M string :=
  match v with
  | StrList l => ret (String.concat sep l)
  | _ => raise NotModelled
  end.

(** ['%s' % v] for a string. *)
Definition format_s (v : value) : M string :=
  match v with
  | Str s => ret s
  | _ => raise NotModelled
  end.

(** ['%-26s' % s]: left-justified in a field of 26 characters. *)
Fixpoint spaces (n : nat) : string :=
  match n with
  | O => ""
  | S n' => String " "%char (spaces n')
  end.

Definition ljust (width : nat) (s : string) : string :=
  s ++ spaces (width - String.length s).

(** [logging.info('%-26s %s', label, text)]. *)
Definition logging_info (label text : string) : M unit :=
  λ w, (inr tt,
        mkWorld (config w) (files w)
                (log w ++ [ljust 26 label ++ " " ++ text])).

(** [os.path.join(a, *p)] of [posixpath]. *)
Definition ends_with_sep (path : string) : bool :=
  match String.get (String.length path - 1) path with
  | Some c => Ascii.eqb c "/"%char
  | None => false
  end.

Fixpoint os_path_join (path : string) (p : list string) : string :=
  match p with
  | [] => path
  | b :: p' =>
      if String.prefix "/" b then os_path_join b p'
      else if String.eqb path "" || ends_with_sep path
           then os_path_join (path ++ b) p'
           else os_path_join (path ++ "/" ++ b) p'
  end.

(** [open(path, 'rb')] followed by [fd.read()]. *)
Definition open_read (path : string) : M (list byte) :=
  λ w, match files w !! path with
       | Some (Readable content) => (inr content, w)
       | Some Unreadable => (inl (IOError EACCES), w)
       | None => (inl (IOError ENOENT), w)
       end.

(** [bytes.strip()]: the whitespace bytes are space, tab, newline, carriage
    return, vertical tab and form feed. *)
Definition is_space (c : byte) : bool :=
  match c with
  | x20 | x09 | x0a | x0d | x0b | x0c => true
  | _ => false
  end.

Fixpoint lstrip (b : list byte) : list byte :=
  match b with
  | [] => []
  | c :: b' => if is_space c then lstrip b' else b
  end.

Definition rstrip (b : list byte) : list byte := reverse (lstrip (reverse b)).

Definition strip (b : list byte) : list byte := rstrip (lstrip b).

(** ** [Config.set_data] *)

(** Modelled from the spec: the method [set_data] of the class [Config] of
    [setup_support], which is not among the sources.  The configuration is
    "a mapping from configuration keys to values" with "a nested group of
    build-tool variables": without [sub] the key is bound in [config.data];
    with [sub] it is bound in the group [config.data[sub]], which is created
    when absent ([update_config] reads [config.data['gprbuild']['BUILD']]
    right after [set_data('BUILD', ..., sub='gprbuild')]).  Storing into a
    [config.data[sub]] that is not a dict is a [TypeError]. *)
Definition set_data (name : string) (v : value) (sub : option string)
  : M unit :=
  do cfg <- get_config in
  match sub with
  | None => put_data (<[name := v]> (data cfg))
  | Some g =>
      match data cfg !! g with
      | None => put_data (<[g := Dict {[name := v]}]> (data cfg))
      | Some (Dict d) => put_data (<[g := Dict (<[name := v]> d)]> (data cfg))
      | Some _ => raise TypeError
      end
  end.

(** ** [GNATCollLZMA.update_config] *)

Definition shared_library_types : list string :=
  ["static"; "static-pic"; "relocatable"].

Definition static_library_types : list string := ["static"].

Definition version_path (cfg : Config) : string :=
  os_path_join (source_dir cfg) [".."; "version_information"].

Definition update_config (args : Args) : M unit :=
  exec (if enable_shared args
        then set_data "library_types" (StrList shared_library_types) None
        else set_data "library_types" (StrList static_library_types) None) in
  do cfg <- get_config in
  do kinds <- getitem (data cfg) "library_types" in
  do joined <- join ", " kinds in
  exec logging_info "Libraries kind" joined in
  do cfg <- get_config in
  do content <- open_read (version_path cfg) in
  let version := strip content in
  exec set_data "GNATCOLL_VERSION" (Bytes version) (Some "gprbuild") in
  exec set_data "BUILD" (Str (if debug args then "DEBUG" else "PROD"))
                (Some "gprbuild") in
  do cfg <- get_config in
  do group <- getitem (data cfg) "gprbuild" in
  do mode <- getitem_value group "BUILD" in
  do text <- format_s mode in
  logging_info "Build mode" text.

(** ** [GNATCollLZMA.variants] *)

(** One element of the result: the extra arguments and [gpr_vars]. *)
Definition variant : Type := list string * gmap string string.

Definition gpr_vars_of (library_type : string) : gmap string string :=
  <["GPR_BUILD" := library_type]> (<["LIBRARY_TYPE" := library_type]> ∅).

(** The body of the [for] loop, [result] being the list built so far. *)
Fixpoint variants_loop (cmd : string) (library_types : list string)
    (result : list variant) : list variant :=
  match library_types with
  | [] => result
  | library_type :: rest =>
      let gpr_vars := gpr_vars_of library_type in
      if String.eqb cmd "install"
      then variants_loop cmd rest
             (result ++ [(["--build-name=" ++ library_type;
                           "--build-var=LIBRARY_TYPE"], gpr_vars)])
      else variants_loop cmd rest (result ++ [([], gpr_vars)])
  end.

(** The loop is modelled for a list of strings, the only shape
    [update_config] stores under [library_types]. *)
Definition variants (cmd : string) : M (list variant) :=
  do cfg <- get_config in
  do kinds <- getitem (data cfg) "library_types" in
  match kinds with
  | StrList l => ret (variants_loop cmd l [])
  | _ => raise NotModelled
  end.

(** ** Notions used in the statements *)

(** The library kinds and the build mode the flags ask for. *)
Definition kinds_for (args : Args) : list string :=
  if enable_shared args then shared_library_types else static_library_types.

Definition mode_for (args : Args) : string :=
  if debug args then "DEBUG" else "PROD".

(** The version file as [update_config] finds it: its content when it can
    be read, and the error number of [open] when it cannot. *)
Definition version_file (w : World) : option (list byte) :=
  match files w !! version_path (config w) with
  | Some (Readable content) => Some content
  | _ => None
  end.

Definition open_errno (w : World) : errno :=
  match files w !! version_path (config w) with
  | Some Unreadable => EACCES
  | _ => ENOENT
  end.

(** The group [config.data['gprbuild']] before the call: empty when the key
    is absent, [None] when the key is bound to something that is no dict. *)
Definition group_of (d : gmap string value) (g : string)
  : option (gmap string value) :=
  match d !! g with
  | None => Some ∅
  | Some (Dict d') => Some d'
  | Some _ => None
  end.

Definition gprbuild_group (w : World) : option (gmap string value) :=
  group_of (data (config w)) "gprbuild".

(** The world once the library kinds are stored and logged. *)
Definition with_kinds (args : Args) (w : World) : World :=
  mkWorld (mkConfig (source_dir (config w))
             (<["library_types" := StrList (kinds_for args)]>
                (data (config w))))
          (files w)
          (log w ++ [ljust 26 "Libraries kind" ++ " "
                       ++ String.concat ", " (kinds_for args)]).

(** The world once the version and the build mode are stored and logged. *)
Definition with_build (args : Args) (content : list byte)
    (g : gmap string value) (w : World) : World :=
  mkWorld (mkConfig (source_dir (config w))
             (<["gprbuild" :=
                  Dict (<["BUILD" := Str (mode_for args)]>
                          (<["GNATCOLL_VERSION" := Bytes (strip content)]>
                             g))]>
                (data (config (with_kinds args w)))))
          (files w)
          (log (with_kinds args w)
             ++ [ljust 26 "Build mode" ++ " " ++ mode_for args]).

(** [v] is [content] without its leading and trailing whitespace. *)
Definition is_trim_of (content v : list byte) : Prop :=
  ∃ pre post : list byte,
    content = (pre ++ v ++ post)%list
    ∧ Forall (λ c, is_space c = true) pre
    ∧ Forall (λ c, is_space c = true) post
    ∧ (∀ c, head v = Some c → is_space c = false)
    ∧ (∀ c, last v = Some c → is_space c = false).

(** What one turn of the loop of [variants] appends. *)
Definition variant_for (cmd library_type : string) : variant :=
  (if String.eqb cmd "install"
   then ["--build-name=" ++ library_type; "--build-var=LIBRARY_TYPE"]
   else [],
   gpr_vars_of library_type).

(** ** Sample worlds *)

(** The bytes of ["  1.2.3\n"]. *)
Definition padded_1_2_3 : list byte :=
  [x20; x20; x31; x2e; x32; x2e; x33; x0a].

(** A checkout at [/work/lzma] whose version file holds ["  1.2.3\n"]. *)
Definition world_1_2_3 : World :=
  mkWorld (mkConfig "/work/lzma" ∅)
          {["/work/lzma/../version_information" := Readable padded_1_2_3]}
          [].

(** The same checkout without a version file. *)
Definition world_no_version : World :=
  mkWorld (mkConfig "/work/lzma" ∅) ∅ [].

(** A configuration that already holds a build mode. *)
Definition world_prod : World :=
  mkWorld (mkConfig "/work/lzma"
             (<["gprbuild" := Dict {["BUILD" := Str "PROD"]}]>
                (<["library_types" := StrList shared_library_types]> ∅)))
          ∅ [].

Definition world_debug : World :=
  mkWorld (mkConfig "/elsewhere"
             (<["gprbuild" := Dict {["BUILD" := Str "DEBUG"]}]>
                (<["library_types" := StrList shared_library_types]> ∅)))
          ∅ ["Build mode                 DEBUG"].

(** ** [GNATCollLZMA.create] *)

(** The two options [create] adds to the build command.  [argparse] starts
    from the declared defaults and runs the action of each occurrence of an
    option, from left to right: [store_false] on [enable_shared] for
    [--disable-shared], [store_true] on [debug] for [--debug].  How
    [argparse] splits the command line, and the options the parent class
    adds, are outside this model: [parse_build_options] takes the
    occurrences of the two options in the order of the command line. *)
Inductive build_option :=
| disable_shared_option
| debug_option.

Global Instance build_option_eq_dec : EqDecision build_option.
Proof. solve_decision. Defined.

Definition default_args : Args :=
  mkArgs true false.

Definition store_option (args : Args) (o : build_option) : Args :=
  match o with
  | disable_shared_option => mkArgs false (debug args)
  | debug_option => mkArgs (enable_shared args) true
  end.

Definition parse_build_options (seen : list build_option) : Args :=
  foldl store_option default_args seen.

(** ** More sample worlds *)

(** A version file of whitespace only, in a configuration that already
    holds a job count and a [gprbuild] group. *)
Definition world_blank : World :=
  mkWorld (mkConfig "lzma"
             (<["jobs" := Str "4"]>
                (<["gprbuild" := Dict {["TARGET" := Str "x86_64-linux"]}]> ∅)))
          {["lzma/../version_information" := Readable [x20; x09; x0a]]}
          ["earlier line"].

(** A configuration on which [update_config] never ran. *)
Definition world_fresh : World :=
  mkWorld (mkConfig "lzma" (<["jobs" := Str "4"]> ∅)) ∅ [].

(** * Properties *)

(** ** Running the monad *)

Lemma bind_ok {A B} (m : M A) (k : A → M B) w a w' :
  m w = (inr a, w') → bind m k w = k a w'.
Proof. intros H. unfold bind. by rewrite H. Qed.

Lemma bind_err {A B} (m : M A) (k : A → M B) w e w' :
  m w = (inl e, w') → bind m k w = (inl e, w').
Proof. intros H. unfold bind. by rewrite H. Qed.

Tactic Notation "step" := erewrite bind_ok; [| reflexivity].
Tactic Notation "step" "by" tactic3(tac) :=
  erewrite bind_ok; [| solve [tac]].
Tactic Notation "stop" "by" tactic3(tac) :=
  erewrite bind_err; [| solve [tac]].

(** ** [set_data] *)

Lemma set_data_top name v w :
  set_data name v None w
  = (inr tt, mkWorld (mkConfig (source_dir (config w))
                        (<[name := v]> (data (config w))))
                     (files w) (log w)).
Proof. reflexivity. Qed.

Lemma set_data_sub name v g d w :
  group_of (data (config w)) g = Some d →
  set_data name v (Some g) w
  = (inr tt, mkWorld (mkConfig (source_dir (config w))
                        (<[g := Dict (<[name := v]> d)]> (data (config w))))
                     (files w) (log w)).
Proof.
  unfold group_of, set_data. intros H. step.
  destruct (data (config w) !! g) as [[]|]; simplify_eq; [done|].
  by rewrite insert_empty.
Qed.

Lemma set_data_sub_type_error name v g w :
  group_of (data (config w)) g = None →
  set_data name v (Some g) w = (inl TypeError, w).
Proof.
  unfold group_of, set_data. intros H. step.
  by destruct (data (config w) !! g) as [[]|]; simplify_eq.
Qed.

(** ** [update_config] in closed form *)

Lemma open_read_ok w content :
  version_file w = Some content →
  open_read (version_path (config w)) w = (inr content, w).
Proof.
  unfold version_file, open_read.
  by destruct (files w !! version_path (config w)) as [[]|]; intros; simplify_eq.
Qed.

Lemma open_read_error w :
  version_file w = None →
  open_read (version_path (config w)) w = (inl (IOError (open_errno w)), w).
Proof.
  unfold version_file, open_errno, open_read.
  by destruct (files w !! version_path (config w)) as [[]|]; intros; simplify_eq.
Qed.

Lemma getitem_insert d k v w :
  getitem (<[k := v]> d) k w = (inr v, w).
Proof. unfold getitem. by rewrite lookup_insert_eq. Qed.

Lemma version_file_with_kinds args w :
  version_file (with_kinds args w) = version_file w.
Proof. reflexivity. Qed.

Lemma gprbuild_group_with_kinds args w :
  gprbuild_group (with_kinds args w) = gprbuild_group w.
Proof.
  unfold gprbuild_group, group_of, with_kinds. cbn [config data].
  by rewrite lookup_insert_ne.
Qed.

(** The first block: the library kinds are stored, read back and logged. *)
Ltac run_kinds args w :=
  unfold update_config;
  replace (if enable_shared args
           then set_data "library_types" (StrList shared_library_types) None
           else set_data "library_types" (StrList static_library_types) None)
    with (set_data "library_types" (StrList (kinds_for args)) None)
    by (unfold kinds_for; destruct (enable_shared args); reflexivity);
  step; step; step by (apply getitem_insert); step;
  step by (exact (eq_refl (inr tt, with_kinds args w)));
  step.

(** Without a readable version file: the error of [open], raised once the
    library kinds are in place. *)
Lemma update_config_io_error args w :
  version_file w = None →
  update_config args w = (inl (IOError (open_errno w)), with_kinds args w).
Proof.
  intros Hfile. run_kinds args w.
  stop by (apply (open_read_error (with_kinds args w)); exact Hfile).
  reflexivity.
Qed.

(** With a version file but a [gprbuild] entry that is no group. *)
Lemma update_config_type_error args w content :
  version_file w = Some content →
  gprbuild_group w = None →
  update_config args w = (inl TypeError, with_kinds args w).
Proof.
  intros Hfile Hgroup. run_kinds args w.
  step by (apply (open_read_ok (with_kinds args w)); exact Hfile).
  stop by (apply set_data_sub_type_error;
           rewrite <- Hgroup; apply (gprbuild_group_with_kinds args w)).
  reflexivity.
Qed.

(** With a version file and a [gprbuild] group [g] (empty when absent). *)
Lemma update_config_ok args w content g :
  version_file w = Some content →
  gprbuild_group w = Some g →
  update_config args w = (inr tt, with_build args content g w).
Proof.
  intros Hfile Hgroup. run_kinds args w.
  step by (apply (open_read_ok (with_kinds args w)); exact Hfile).
  step by (apply set_data_sub with (d := g);
           rewrite <- Hgroup; apply (gprbuild_group_with_kinds args w)).
  step by (apply set_data_sub; unfold group_of; cbn [config data];
           rewrite lookup_insert_eq; reflexivity).
  step. cbn [config data]. rewrite insert_insert_eq.
  step by (apply getitem_insert).
  step by (apply getitem_insert).
  step. reflexivity.
Qed.

(** Every run ends in one of these three ways. *)
Lemma update_config_cases args w :
  update_config args w
  = match version_file w, gprbuild_group w with
    | None, _ => (inl (IOError (open_errno w)), with_kinds args w)
    | Some _, None => (inl TypeError, with_kinds args w)
    | Some content, Some g => (inr tt, with_build args content g w)
    end.
Proof.
  destruct (version_file w) as [content|] eqn:Hfile.
  - destruct (gprbuild_group w) as [g|] eqn:Hgroup.
    + by apply update_config_ok.
    + by apply update_config_type_error with (content := content).
  - by apply update_config_io_error.
Qed.

Lemma library_types_with_kinds args w :
  data (config (with_kinds args w)) !! "library_types"
  = Some (StrList (kinds_for args)).
Proof. unfold with_kinds. cbn [config data]. apply lookup_insert_eq. Qed.

Lemma library_types_with_build args content g w :
  data (config (with_build args content g w)) !! "library_types"
  = Some (StrList (kinds_for args)).
Proof.
  unfold with_build. cbn [config data].
  rewrite lookup_insert_ne by done. apply library_types_with_kinds.
Qed.

Lemma final_library_types args w :
  data (config (final (update_config args w))) !! "library_types"
  = Some (StrList (kinds_for args)).
Proof.
  rewrite update_config_cases.
  destruct (version_file w), (gprbuild_group w); unfold final; cbn [snd];
    auto using library_types_with_kinds, library_types_with_build.
Qed.

Lemma version_file_readable w content :
  files w !! version_path (config w) = Some (Readable content) →
  version_file w = Some content.
Proof. unfold version_file. by intros ->. Qed.

Lemma gprbuild_with_build args content g w :
  data (config (with_build args content g w)) !! "gprbuild"
  = Some (Dict (<["BUILD" := Str (mode_for args)]>
                  (<["GNATCOLL_VERSION" := Bytes (strip content)]> g))).
Proof. unfold with_build. cbn [config data]. apply lookup_insert_eq. Qed.

(** ** The version file path *)

Lemma string_append_assoc (s t u : string) :
  (s ++ t) ++ u = s ++ (t ++ u).
Proof.
  induction s as [|a s IH]; [reflexivity|].
  change (String a ((s ++ t) ++ u) = String a (s ++ (t ++ u))).
  by rewrite IH.
Qed.

Lemma length_append_one (s : string) (c : ascii) :
  String.length (s ++ String c "") = S (String.length s).
Proof.
  induction s as [|a s IH]; [reflexivity|].
  change (S (String.length (s ++ String c "")) = S (S (String.length s))).
  by rewrite IH.
Qed.

Lemma get_length_append (s t : string) (c : ascii) :
  String.get (String.length s) (s ++ String c t) = Some c.
Proof. induction s as [|a s IH]; [reflexivity|exact IH]. Qed.

Lemma get_last_append (s : string) (c : ascii) :
  String.get (String.length (s ++ String c "") - 1) (s ++ String c "")
  = Some c.
Proof.
  rewrite length_append_one. cbn [Nat.sub]. rewrite Nat.sub_0_r.
  apply get_length_append.
Qed.

(** For a source directory that is not empty and does not end in a slash,
    the version file is [<source_dir>/../version_information]. *)
Lemma version_path_plain cfg :
  source_dir cfg ≠ "" →
  ends_with_sep (source_dir cfg) = false →
  version_path cfg = source_dir cfg ++ "/../version_information".
Proof.
  intros Hne Hsep. unfold version_path. cbn [os_path_join].
  change (String.prefix "/" "..") with false.
  change (String.prefix "/" "version_information") with false.
  cbn match.
  destruct (String.eqb_spec (source_dir cfg) "") as [|_]; [done|].
  rewrite Hsep. cbn [orb].
  assert (Hdots : ends_with_sep (source_dir cfg ++ "/" ++ "..") = false).
  { unfold ends_with_sep.
    change (source_dir cfg ++ "/" ++ "..")
      with (source_dir cfg ++ "/." ++ String "."%char "").
    rewrite <- string_append_assoc, get_last_append. reflexivity. }
  rewrite Hdots, orb_false_r.
  destruct (String.eqb_spec (source_dir cfg ++ "/" ++ "..") "") as [E|_].
  - destruct (source_dir cfg); discriminate.
  - by rewrite string_append_assoc.
Qed.

(** ** Library kinds *)

Lemma kinds_for_shape args :
  kinds_for args ≠ [] ∧ NoDup (kinds_for args)
  ∧ head (kinds_for args) = Some "static".
Proof.
  unfold kinds_for, shared_library_types, static_library_types.
  destruct (enable_shared args); (split; [done|split; [|done]]);
    by apply (bool_decide_unpack _).
Qed.

(** C1: whatever the flags, the configuration and the files, when
    [update_config] ends [library_types] is bound to exactly [static]
    without [enable_shared] and to exactly [static, static-pic, relocatable],
    in this order, with it; the list is not empty, has no duplicates, and its
    first element, the default library kind, is [static]. *)
Theorem update_config_library_types (args : Args) (w : World) :
  ∃ kinds : list string,
    data (config (final (update_config args w))) !! "library_types"
    = Some (StrList kinds)
    ∧ kinds = (if enable_shared args
               then ["static"; "static-pic"; "relocatable"]
               else ["static"])
    ∧ kinds ≠ [] ∧ NoDup kinds ∧ head kinds = Some "static".
Proof.
  exists (kinds_for args). split; [apply final_library_types|].
  split; [reflexivity|apply kinds_for_shape].
Qed.

(** C7: two calls whose flags agree on [enable_shared] end with the same
    [library_types], whatever the debug flag, the earlier configuration and
    the version file of each. *)
Theorem library_types_deterministic
    (args1 args2 : Args) (w1 w2 : World) :
  enable_shared args1 = enable_shared args2 →
  data (config (final (update_config args1 w1))) !! "library_types"
  = data (config (final (update_config args2 w2))) !! "library_types".
Proof.
  intros Hshared. rewrite !final_library_types.
  unfold kinds_for. by rewrite Hshared.
Qed.

Lemma library_types_deterministic_witness :
  enable_shared (mkArgs true false) = enable_shared (mkArgs true true)
  ∧ data (config (final (update_config (mkArgs true false) world_1_2_3)))
      !! "library_types"
    = data (config (final (update_config (mkArgs true true) world_prod)))
      !! "library_types".
Proof.
  split; [reflexivity|].
  apply (library_types_deterministic
           (mkArgs true false) (mkArgs true true) world_1_2_3 world_prod).
  reflexivity.
Defined.

(** ** The version file *)

(** C4, as the code has it: without a readable version file [update_config]
    raises the I/O error of [open] and returns nothing; the shared
    configuration holds by then the library kinds of this call, and nothing
    else of it has changed. *)
Theorem missing_version_file_raises (args : Args) (w : World) :
  version_file w = None →
  outcome (update_config args w) = inl (IOError (open_errno w))
  ∧ config (final (update_config args w))
    = mkConfig (source_dir (config w))
        (<["library_types" := StrList (kinds_for args)]> (data (config w))).
Proof.
  intros Hfile. by rewrite update_config_io_error.
Qed.

Lemma missing_version_file_raises_witness :
  version_file world_no_version = None
  ∧ outcome (update_config (mkArgs false true) world_no_version)
    = inl (IOError (open_errno world_no_version))
  ∧ config (final (update_config (mkArgs false true) world_no_version))
    = mkConfig (source_dir (config world_no_version))
        (<["library_types" := StrList (kinds_for (mkArgs false true))]>
           (data (config world_no_version))).
Proof.
  split; [reflexivity|].
  apply (missing_version_file_raises (mkArgs false true) world_no_version).
  reflexivity.
Defined.

(** C4 as stated fails: with the version file missing, the call raises the
    I/O error and the configuration is no longer the one it was given. *)
Lemma error_path_changes_config :
  version_file world_no_version = None
  ∧ outcome (update_config (mkArgs true false) world_no_version)
    = inl (IOError ENOENT)
  ∧ config (final (update_config (mkArgs true false) world_no_version))
    ≠ config world_no_version
  ∧ data (config world_no_version) !! "library_types" = None
  ∧ data (config (final (update_config (mkArgs true false) world_no_version)))
      !! "library_types"
    = Some (StrList ["static"; "static-pic"; "relocatable"]).
Proof.
  split; [reflexivity|]. split; [reflexivity|].
  split; [|split; [reflexivity|apply final_library_types]].
  intros Heq.
  pose proof (final_library_types
                (mkArgs true false) world_no_version) as Hkinds.
  rewrite Heq in Hkinds. discriminate Hkinds.
Qed.

(** ** [strip] *)

Lemma lstrip_spec (b : list byte) :
  ∃ pre, b = (pre ++ lstrip b)%list
         ∧ Forall (λ c, is_space c = true) pre
         ∧ ∀ c, head (lstrip b) = Some c → is_space c = false.
Proof.
  induction b as [|c b (pre & Hb & Hpre & Hhead)].
  - exists []. by repeat split.
  - cbn [lstrip]. destruct (is_space c) eqn:Hc.
    + exists (c :: pre). split; [by rewrite Hb at 1|]. split; [|done].
      by constructor.
    + exists []. split; [done|]. split; [constructor|].
      by intros c' [= <-].
Qed.

Lemma rstrip_spec (b : list byte) :
  ∃ post, b = (rstrip b ++ post)%list
          ∧ Forall (λ c, is_space c = true) post
          ∧ ∀ c, last (rstrip b) = Some c → is_space c = false.
Proof.
  destruct (lstrip_spec (reverse b)) as (pre & Hb & Hpre & Hhead).
  exists (reverse pre). unfold rstrip. split; [|split].
  - by rewrite <- reverse_app, <- Hb, reverse_involutive.
  - by apply Forall_reverse.
  - intros c. rewrite last_reverse. apply Hhead.
Qed.

Lemma strip_is_trim (content : list byte) :
  is_trim_of content (strip content).
Proof.
  destruct (lstrip_spec content) as (pre & Hpre_eq & Hpre & Hhead).
  destruct (rstrip_spec (lstrip content)) as (post & Hpost_eq & Hpost & Hlast).
  exists pre, post. fold (strip content) in Hpost_eq, Hlast.
  split; [by rewrite <- Hpost_eq|]. repeat split; [done..| |done].
  intros c Hc. apply Hhead. rewrite Hpost_eq.
  by destruct (strip content); simplify_eq/=.
Qed.

Example strip_padded_1_2_3 :
  strip padded_1_2_3 = [x31; x2e; x32; x2e; x33].
Proof. reflexivity. Qed.

(** C5, as the code has it: [update_config] reads the file
    [version_information] joined to [source_dir] through [..] as bytes, and
    on success the group [gprbuild] binds [GNATCOLL_VERSION] (the key the
    code writes; a key [VERSION] is left as it was) to these bytes without
    their leading and trailing whitespace; the bytes of ["  1.2.3\n"] give
    those of ["1.2.3"]. *)
Theorem update_config_version
    (args : Args) (w : World) (content : list byte) (g : gmap string value) :
  files w !! os_path_join (source_dir (config w)) [".."; "version_information"]
  = Some (Readable content) →
  gprbuild_group w = Some g →
  outcome (update_config args w) = inr tt
  ∧ (∃ (g' : gmap string value) (version : list byte),
       data (config (final (update_config args w))) !! "gprbuild"
       = Some (Dict g')
       ∧ g' !! "GNATCOLL_VERSION" = Some (Bytes version)
       ∧ version = strip content
       ∧ is_trim_of content version
       ∧ g' !! "VERSION" = g !! "VERSION")
  ∧ strip padded_1_2_3 = [x31; x2e; x32; x2e; x33].
Proof.
  intros Hfile%version_file_readable Hgroup.
  rewrite (update_config_ok args w content g Hfile Hgroup).
  split; [reflexivity|]. split; [|reflexivity].
  exists (<["BUILD" := Str (mode_for args)]>
            (<["GNATCOLL_VERSION" := Bytes (strip content)]> g)),
         (strip content).
  split; [apply gprbuild_with_build|].
  split; [by rewrite lookup_insert_ne, lookup_insert_eq|].
  split; [reflexivity|]. split; [apply strip_is_trim|].
  by rewrite !lookup_insert_ne.
Qed.

Lemma update_config_version_witness :
  files world_1_2_3
    !! os_path_join (source_dir (config world_1_2_3))
         [".."; "version_information"]
  = Some (Readable padded_1_2_3)
  ∧ gprbuild_group world_1_2_3 = Some ∅
  ∧ outcome (update_config (mkArgs true true) world_1_2_3) = inr tt
  ∧ (∃ (g' : gmap string value) (version : list byte),
       data (config (final (update_config (mkArgs true true) world_1_2_3)))
         !! "gprbuild"
       = Some (Dict g')
       ∧ g' !! "GNATCOLL_VERSION" = Some (Bytes version)
       ∧ version = strip padded_1_2_3
       ∧ is_trim_of padded_1_2_3 version
       ∧ g' !! "VERSION" = (∅ : gmap string value) !! "VERSION")
  ∧ strip padded_1_2_3 = [x31; x2e; x32; x2e; x33].
Proof.
  split; [reflexivity|]. split; [reflexivity|].
  apply (update_config_version (mkArgs true true) world_1_2_3
           padded_1_2_3 ∅); reflexivity.
Defined.

(** C5 as stated fails on the name of the variable: after a successful call
    on the file ["  1.2.3\n"] the group [gprbuild] has no [VERSION]; the
    trimmed bytes are under [GNATCOLL_VERSION]. *)
Lemma update_config_writes_no_VERSION :
  outcome (update_config (mkArgs true false) world_1_2_3) = inr tt
  ∧ ∃ g' : gmap string value,
      data (config (final (update_config (mkArgs true false) world_1_2_3)))
        !! "gprbuild"
      = Some (Dict g')
      ∧ g' !! "VERSION" = None
      ∧ g' !! "GNATCOLL_VERSION" = Some (Bytes [x31; x2e; x32; x2e; x33]).
Proof.
  rewrite (update_config_ok (mkArgs true false) world_1_2_3 padded_1_2_3 ∅)
    by reflexivity.
  split; [reflexivity|]. eexists. split; [apply gprbuild_with_build|].
  split; [by rewrite !lookup_insert_ne|].
  by rewrite lookup_insert_ne, lookup_insert_eq.
Qed.

(** ** The build mode *)

(** C6: whatever the flags, a call that finds the version file (and a
    [gprbuild] entry that is absent or a group) succeeds and leaves [BUILD]
    of the group [gprbuild] bound to [DEBUG] with [debug] and to [PROD]
    without. *)
Theorem update_config_build_mode
    (args : Args) (w : World) (content : list byte) (g : gmap string value) :
  version_file w = Some content →
  gprbuild_group w = Some g →
  outcome (update_config args w) = inr tt
  ∧ ∃ g' : gmap string value,
      data (config (final (update_config args w))) !! "gprbuild"
      = Some (Dict g')
      ∧ g' !! "BUILD" = Some (Str (if debug args then "DEBUG" else "PROD")).
Proof.
  intros Hfile Hgroup.
  rewrite (update_config_ok args w content g Hfile Hgroup).
  split; [reflexivity|]. eexists. split; [apply gprbuild_with_build|].
  apply lookup_insert_eq.
Qed.

Lemma update_config_build_mode_witness :
  version_file world_1_2_3 = Some padded_1_2_3
  ∧ gprbuild_group world_1_2_3 = Some ∅
  ∧ outcome (update_config (mkArgs false true) world_1_2_3) = inr tt
  ∧ ∃ g' : gmap string value,
      data (config (final (update_config (mkArgs false true) world_1_2_3)))
        !! "gprbuild"
      = Some (Dict g')
      ∧ g' !! "BUILD" = Some (Str "DEBUG").
Proof.
  split; [reflexivity|]. split; [reflexivity|].
  apply (update_config_build_mode (mkArgs false true) world_1_2_3
           padded_1_2_3 ∅); reflexivity.
Defined.

(** ** [variants] *)

Lemma variants_loop_cons cmd k (l : list string) (result : list variant) :
  variants_loop cmd (k :: l) result
  = variants_loop cmd l (result ++ [variant_for cmd k]).
Proof.
  cbn [variants_loop]. unfold variant_for.
  by destruct (String.eqb cmd "install").
Qed.

Lemma variants_loop_app cmd (l : list string) (result : list variant) :
  variants_loop cmd l result = (result ++ (variant_for cmd <$> l))%list.
Proof.
  revert result. induction l as [|k l IH]; intros result.
  - by rewrite app_nil_r.
  - by rewrite variants_loop_cons, IH, <- app_assoc, fmap_cons.
Qed.

(** On a configuration with [library_types], [variants] returns one
    variant per kind and leaves the world as it was. *)
Lemma variants_populated cmd w (l : list string) :
  data (config w) !! "library_types" = Some (StrList l) →
  variants cmd w = (inr (variant_for cmd <$> l), w).
Proof.
  intros Hkinds. unfold variants. step.
  step by (unfold getitem; rewrite Hkinds; reflexivity).
  cbv beta iota. unfold ret. by rewrite variants_loop_app.
Qed.

Lemma variants_missing cmd w :
  data (config w) !! "library_types" = None →
  variants cmd w = (inl (KeyError "library_types"), w).
Proof.
  intros Hkinds. unfold variants. step.
  stop by (unfold getitem; rewrite Hkinds; reflexivity).
  reflexivity.
Qed.

Lemma gpr_vars_of_dom (k : string) :
  dom (gpr_vars_of k) = ({["LIBRARY_TYPE"; "GPR_BUILD"]} : gset string).
Proof. unfold gpr_vars_of. rewrite !dom_insert_L. set_solver. Qed.

Lemma gpr_vars_of_LIBRARY_TYPE (k : string) :
  gpr_vars_of k !! "LIBRARY_TYPE" = Some k.
Proof. unfold gpr_vars_of. by rewrite lookup_insert_ne, lookup_insert_eq. Qed.

Lemma gpr_vars_of_GPR_BUILD (k : string) :
  gpr_vars_of k !! "GPR_BUILD" = Some k.
Proof. unfold gpr_vars_of. by rewrite lookup_insert_eq. Qed.

(** C2: on a configuration whose [library_types] is a list [l], and for
    every command, [variants] returns as many variants as [l] has entries,
    and the variable map of the i-th binds [LIBRARY_TYPE] to the i-th entry
    of [l]. *)
Theorem variants_length_and_order (cmd : string) (w : World) (l : list string) :
  data (config w) !! "library_types" = Some (StrList l) →
  ∃ result : list variant,
    outcome (variants cmd w) = inr result
    ∧ length result = length l
    ∧ ∀ (i : nat) (k : string),
        l !! i = Some k →
        ∃ v : variant, result !! i = Some v
                       ∧ snd v !! "LIBRARY_TYPE" = Some k.
Proof.
  intros Hkinds. rewrite (variants_populated cmd w l Hkinds).
  eexists. split; [reflexivity|]. split; [apply length_fmap|].
  intros i k Hi. exists (variant_for cmd k).
  split; [by rewrite list_lookup_fmap, Hi|].
  apply gpr_vars_of_LIBRARY_TYPE.
Qed.

Lemma variants_length_and_order_witness :
  data (config world_prod) !! "library_types"
  = Some (StrList shared_library_types)
  ∧ ∃ result : list variant,
      outcome (variants "build" world_prod) = inr result
      ∧ length result = length shared_library_types
      ∧ ∀ (i : nat) (k : string),
          shared_library_types !! i = Some k →
          ∃ v : variant, result !! i = Some v
                         ∧ snd v !! "LIBRARY_TYPE" = Some k.
Proof.
  split; [reflexivity|].
  apply (variants_length_and_order "build" world_prod shared_library_types).
  reflexivity.
Defined.

Lemma variant_for_arguments (cmd k : string) :
  (cmd = "install" →
   fst (variant_for cmd k)
   = ["--build-name=" ++ k; "--build-var=LIBRARY_TYPE"]
   ∧ length (fst (variant_for cmd k)) = 2)
  ∧ (cmd ≠ "install" → fst (variant_for cmd k) = []).
Proof.
  unfold variant_for. cbn [fst].
  destruct (String.eqb_spec cmd "install") as [Hcmd|Hcmd]; by split.
Qed.

(** C3: on a configuration whose [library_types] is a list [l], [variants]
    returns one variant per entry of [l]: for every index i of [l], with
    kind [k], the i-th variant is there and has, for the command [install],
    exactly the two arguments [--build-name=k] and
    [--build-var=LIBRARY_TYPE], and for any other command no argument; and
    the result holds no other variant. *)
Theorem variants_arguments (cmd : string) (w : World) (l : list string) :
  data (config w) !! "library_types" = Some (StrList l) →
  ∃ result : list variant,
    outcome (variants cmd w) = inr result
    ∧ length result = length l
    ∧ (∀ (i : nat) (k : string),
         l !! i = Some k →
         ∃ v : variant,
           result !! i = Some v
           ∧ snd v !! "LIBRARY_TYPE" = Some k
           ∧ (cmd = "install" →
              fst v = ["--build-name=" ++ k; "--build-var=LIBRARY_TYPE"]
              ∧ length (fst v) = 2)
           ∧ (cmd ≠ "install" → fst v = []))
    ∧ ∀ (i : nat) (v : variant),
        result !! i = Some v →
        ∃ k : string,
          l !! i = Some k
          ∧ snd v !! "LIBRARY_TYPE" = Some k
          ∧ (cmd = "install" →
             fst v = ["--build-name=" ++ k; "--build-var=LIBRARY_TYPE"]
             ∧ length (fst v) = 2)
          ∧ (cmd ≠ "install" → fst v = []).
Proof.
  intros Hkinds. rewrite (variants_populated cmd w l Hkinds).
  eexists. split; [reflexivity|]. split; [apply length_fmap|]. split.
  - intros i k Hi. exists (variant_for cmd k).
    split; [by rewrite list_lookup_fmap, Hi|].
    split; [apply gpr_vars_of_LIBRARY_TYPE|apply variant_for_arguments].
  - intros i v Hv. rewrite list_lookup_fmap in Hv.
    destruct (l !! i) as [k|]; [|discriminate Hv].
    injection Hv as <-. exists k. split; [reflexivity|].
    split; [apply gpr_vars_of_LIBRARY_TYPE|apply variant_for_arguments].
Qed.

Lemma variants_arguments_witness :
  data (config world_prod) !! "library_types"
  = Some (StrList shared_library_types)
  ∧ ∃ result : list variant,
      outcome (variants "install" world_prod) = inr result
      ∧ length result = length shared_library_types
      ∧ (∀ (i : nat) (k : string),
           shared_library_types !! i = Some k →
           ∃ v : variant,
             result !! i = Some v
             ∧ snd v !! "LIBRARY_TYPE" = Some k
             ∧ ("install" = "install" →
                fst v = ["--build-name=" ++ k; "--build-var=LIBRARY_TYPE"]
                ∧ length (fst v) = 2)
             ∧ ("install" ≠ "install" → fst v = []))
      ∧ ∀ (i : nat) (v : variant),
          result !! i = Some v →
          ∃ k : string,
            shared_library_types !! i = Some k
            ∧ snd v !! "LIBRARY_TYPE" = Some k
            ∧ ("install" = "install" →
               fst v = ["--build-name=" ++ k; "--build-var=LIBRARY_TYPE"]
               ∧ length (fst v) = 2)
            ∧ ("install" ≠ "install" → fst v = []).
Proof.
  split; [reflexivity|].
  apply (variants_arguments "install" world_prod shared_library_types).
  reflexivity.
Defined.

(** C8: on a configuration whose [library_types] is a list, and for every
    command, [variants] returns a result, raises nothing and leaves the
    configuration, the files and the log as they were. *)
Theorem variants_total_and_pure (cmd : string) (w : World) (l : list string) :
  data (config w) !! "library_types" = Some (StrList l) →
  ∃ result : list variant,
    outcome (variants cmd w) = inr result
    ∧ final (variants cmd w) = w.
Proof.
  intros Hkinds. rewrite (variants_populated cmd w l Hkinds).
  by eexists.
Qed.

Lemma variants_total_and_pure_witness :
  data (config world_debug) !! "library_types"
  = Some (StrList shared_library_types)
  ∧ ∃ result : list variant,
      outcome (variants "clean" world_debug) = inr result
      ∧ final (variants "clean" world_debug) = world_debug.
Proof.
  split; [reflexivity|].
  apply (variants_total_and_pure "clean" world_debug shared_library_types).
  reflexivity.
Defined.

(** C9: for every command and every index i, the variable map of the i-th
    variant has exactly the keys [LIBRARY_TYPE] and [GPR_BUILD], both bound
    to the i-th entry of [library_types]. *)
Theorem variants_gpr_vars (cmd : string) (w : World) (l : list string) :
  data (config w) !! "library_types" = Some (StrList l) →
  ∃ result : list variant,
    outcome (variants cmd w) = inr result
    ∧ ∀ (i : nat) (k : string),
        l !! i = Some k →
        ∃ v : variant,
          result !! i = Some v
          ∧ dom (snd v) = ({["LIBRARY_TYPE"; "GPR_BUILD"]} : gset string)
          ∧ snd v !! "LIBRARY_TYPE" = Some k
          ∧ snd v !! "GPR_BUILD" = Some k.
Proof.
  intros Hkinds. rewrite (variants_populated cmd w l Hkinds).
  eexists. split; [reflexivity|]. intros i k Hi.
  exists (variant_for cmd k). split; [by rewrite list_lookup_fmap, Hi|].
  cbn [variant_for snd].
  auto using gpr_vars_of_dom, gpr_vars_of_LIBRARY_TYPE, gpr_vars_of_GPR_BUILD.
Qed.

Lemma variants_gpr_vars_witness :
  data (config world_prod) !! "library_types"
  = Some (StrList shared_library_types)
  ∧ ∃ result : list variant,
      outcome (variants "install" world_prod) = inr result
      ∧ ∀ (i : nat) (k : string),
          shared_library_types !! i = Some k →
          ∃ v : variant,
            result !! i = Some v
            ∧ dom (snd v) = ({["LIBRARY_TYPE"; "GPR_BUILD"]} : gset string)
            ∧ snd v !! "LIBRARY_TYPE" = Some k
            ∧ snd v !! "GPR_BUILD" = Some k.
Proof.
  split; [reflexivity|].
  apply (variants_gpr_vars "install" world_prod shared_library_types).
  reflexivity.
Defined.

(** C10: what [variants] returns depends on the configuration through
    [library_types] only: two worlds that agree on that entry, and differ
    in anything else, give the same outcome for the same command. *)
Theorem variants_noninterference (cmd : string) (w1 w2 : World) :
  data (config w1) !! "library_types" = data (config w2) !! "library_types" →
  outcome (variants cmd w1) = outcome (variants cmd w2).
Proof.
  intros Hkinds. unfold variants, bind, get_config, getitem.
  rewrite Hkinds.
  by destruct (data (config w2) !! "library_types") as [[]|].
Qed.

Lemma variants_noninterference_witness :
  data (config world_prod) !! "library_types"
  = data (config world_debug) !! "library_types"
  ∧ outcome (variants "install" world_prod)
    = outcome (variants "install" world_debug).
Proof.
  split; [reflexivity|].
  apply (variants_noninterference "install" world_prod world_debug).
  reflexivity.
Defined.

(** * Further properties of [update_config] *)

Lemma final_source_dir_files args w :
  source_dir (config (final (update_config args w))) = source_dir (config w)
  ∧ files (final (update_config args w)) = files w.
Proof.
  rewrite update_config_cases.
  by destruct (version_file w), (gprbuild_group w).
Qed.

Lemma data_with_kinds_ne args w (k : string) :
  k ≠ "library_types" →
  data (config (with_kinds args w)) !! k = data (config w) !! k.
Proof.
  intros Hk. unfold with_kinds. cbn [config data].
  by rewrite lookup_insert_ne.
Qed.

(** X1: whatever its outcome, [update_config] touches no key of
    [config.data] other than [library_types] and [gprbuild], and leaves
    [source_dir] and the files as they were. *)
Theorem update_config_frame (args : Args) (w : World) (k : string) :
  k ≠ "library_types" →
  k ≠ "gprbuild" →
  data (config (final (update_config args w))) !! k = data (config w) !! k
  ∧ source_dir (config (final (update_config args w))) = source_dir (config w)
  ∧ files (final (update_config args w)) = files w.
Proof.
  intros Hkinds Hgroup. split; [|apply final_source_dir_files].
  rewrite update_config_cases.
  destruct (version_file w), (gprbuild_group w); unfold final; cbn [snd];
    try by apply data_with_kinds_ne.
  unfold with_build. cbn [config data].
  rewrite lookup_insert_ne by done. by apply data_with_kinds_ne.
Qed.

Lemma update_config_frame_witness :
  "jobs" ≠ "library_types"
  ∧ "jobs" ≠ "gprbuild"
  ∧ data (config (final (update_config (mkArgs true true) world_blank)))
      !! "jobs"
    = data (config world_blank) !! "jobs"
  ∧ source_dir (config (final (update_config (mkArgs true true) world_blank)))
    = source_dir (config world_blank)
  ∧ files (final (update_config (mkArgs true true) world_blank))
    = files world_blank.
Proof.
  split; [discriminate|]. split; [discriminate|].
  apply (update_config_frame (mkArgs true true) world_blank "jobs");
    discriminate.
Defined.

(** X2: a successful [update_config] adds [GNATCOLL_VERSION] and [BUILD] to
    the group [gprbuild] and keeps every other variable of the group. *)
Theorem update_config_group_frame
    (args : Args) (w : World) (content : list byte) (g : gmap string value) :
  version_file w = Some content →
  gprbuild_group w = Some g →
  ∃ g' : gmap string value,
    data (config (final (update_config args w))) !! "gprbuild" = Some (Dict g')
    ∧ dom g' = ({["GNATCOLL_VERSION"; "BUILD"]} ∪ dom g : gset string)
    ∧ ∀ k : string,
        k ≠ "GNATCOLL_VERSION" → k ≠ "BUILD" → g' !! k = g !! k.
Proof.
  intros Hfile Hgroup.
  rewrite (update_config_ok args w content g Hfile Hgroup).
  eexists. split; [apply gprbuild_with_build|]. split.
  - rewrite !dom_insert_L. apply set_eq. intros k.
    rewrite !elem_of_union, !elem_of_singleton. tauto.
  - intros k Hversion Hbuild. by rewrite !lookup_insert_ne.
Qed.

Lemma update_config_group_frame_witness :
  version_file world_blank = Some [x20; x09; x0a]
  ∧ gprbuild_group world_blank = Some {["TARGET" := Str "x86_64-linux"]}
  ∧ ∃ g' : gmap string value,
      data (config (final (update_config (mkArgs false false) world_blank)))
        !! "gprbuild"
      = Some (Dict g')
      ∧ dom g'
        = ({["GNATCOLL_VERSION"; "BUILD"]}
             ∪ dom ({["TARGET" := Str "x86_64-linux"]} : gmap string value)
           : gset string)
      ∧ ∀ k : string,
          k ≠ "GNATCOLL_VERSION" → k ≠ "BUILD" →
          g' !! k
          = ({["TARGET" := Str "x86_64-linux"]} : gmap string value) !! k.
Proof.
  split; [reflexivity|]. split; [reflexivity|].
  apply (update_config_group_frame (mkArgs false false) world_blank
           [x20; x09; x0a] {["TARGET" := Str "x86_64-linux"]});
    reflexivity.
Defined.

(** X3: [update_config] keeps the earlier log lines and always logs the
    library kinds, joined with a comma and a space, after the label padded
    to 26 characters; the build mode line follows when, and only when, the
    call returns normally. *)
Theorem update_config_log (args : Args) (w : World) :
  log (final (update_config args w))
  = (log w
     ++ [("Libraries kind             "
            ++ String.concat ", "
                 (if enable_shared args
                  then ["static"; "static-pic"; "relocatable"]
                  else ["static"]))%string]
     ++ match outcome (update_config args w) with
        | inr _ =>
            [("Build mode                 "
                ++ (if debug args then "DEBUG" else "PROD"))%string]
        | inl _ => []
        end)%list.
Proof.
  rewrite update_config_cases.
  destruct (version_file w), (gprbuild_group w);
    unfold final, outcome, with_build, with_kinds, kinds_for, mode_for;
    cbn [fst snd log];
    rewrite ?app_nil_r, <- ?app_assoc;
    by destruct (enable_shared args), (debug args).
Qed.

Lemma version_file_with_build args content g w :
  version_file (with_build args content g w) = version_file w.
Proof. reflexivity. Qed.

Lemma gprbuild_group_with_build args content g w :
  gprbuild_group (with_build args content g w)
  = Some (<["BUILD" := Str (mode_for args)]>
            (<["GNATCOLL_VERSION" := Bytes (strip content)]> g)).
Proof.
  unfold gprbuild_group, group_of. by rewrite gprbuild_with_build.
Qed.

(** X4: the last call wins.  When [update_config] has succeeded with some
    flags, a second call with other flags succeeds too and leaves the
    configuration a single call with the second flags would have left; with
    the same flags twice, the second call changes nothing in it. *)
Theorem update_config_last_call_wins
    (args1 args2 : Args) (w : World) (content : list byte)
    (g : gmap string value) :
  version_file w = Some content →
  gprbuild_group w = Some g →
  outcome (update_config args2 (final (update_config args1 w))) = inr tt
  ∧ config (final (update_config args2 (final (update_config args1 w))))
    = config (final (update_config args2 w))
  ∧ config (final (update_config args1 (final (update_config args1 w))))
    = config (final (update_config args1 w)).
Proof.
  intros Hfile Hgroup.
  assert (Hagain : ∀ a b,
    update_config b (final (update_config a w))
    = (inr tt, with_build b content
                 (<["BUILD" := Str (mode_for a)]>
                    (<["GNATCOLL_VERSION" := Bytes (strip content)]> g))
                 (with_build a content g w))).
  { intros a b. rewrite (update_config_ok a w content g Hfile Hgroup).
    apply update_config_ok; [exact Hfile|].
    apply gprbuild_group_with_build. }
  assert (Hsame : ∀ a b,
    config (final (update_config b (final (update_config a w))))
    = config (final (update_config b w))).
  { intros a b. rewrite Hagain.
    rewrite (update_config_ok b w content g Hfile Hgroup).
    unfold final, with_build, with_kinds. cbn [snd config data source_dir].
    f_equal. apply map_eq. intros k.
    destruct (decide (k = "gprbuild")) as [->|Hgp].
    - rewrite !lookup_insert_eq. do 2 f_equal. apply map_eq. intros j.
      destruct (decide (j = "BUILD")) as [->|Hb];
        [by rewrite !lookup_insert_eq|].
      rewrite !(lookup_insert_ne _ "BUILD") by done.
      destruct (decide (j = "GNATCOLL_VERSION")) as [->|Hv];
        [by rewrite !lookup_insert_eq|].
      by rewrite !lookup_insert_ne by done.
    - rewrite !(lookup_insert_ne _ "gprbuild") by done.
      destruct (decide (k = "library_types")) as [->|Hlt];
        [by rewrite !lookup_insert_eq|].
      by rewrite !lookup_insert_ne by done. }
  split; [by rewrite Hagain|]. split; apply Hsame.
Qed.

Lemma update_config_last_call_wins_witness :
  version_file world_blank = Some [x20; x09; x0a]
  ∧ gprbuild_group world_blank = Some {["TARGET" := Str "x86_64-linux"]}
  ∧ outcome (update_config (mkArgs false true)
               (final (update_config (mkArgs true false) world_blank)))
    = inr tt
  ∧ config (final (update_config (mkArgs false true)
                     (final (update_config (mkArgs true false) world_blank))))
    = config (final (update_config (mkArgs false true) world_blank))
  ∧ config (final (update_config (mkArgs true false)
                     (final (update_config (mkArgs true false) world_blank))))
    = config (final (update_config (mkArgs true false) world_blank)).
Proof.
  split; [reflexivity|]. split; [reflexivity|].
  apply (update_config_last_call_wins (mkArgs true false) (mkArgs false true)
           world_blank [x20; x09; x0a] {["TARGET" := Str "x86_64-linux"]});
    reflexivity.
Defined.

(** X5: [variants] can always follow [update_config]: whatever the flags,
    the earlier configuration and the outcome of [update_config], it raises
    nothing and plans three variants with [enable_shared] and one without,
    one per library kind and in their order. *)
Theorem variants_after_update_config
    (args : Args) (w : World) (cmd : string) :
  ∃ result : list variant,
    outcome (variants cmd (final (update_config args w))) = inr result
    ∧ result = variant_for cmd
                 <$> (if enable_shared args
                      then ["static"; "static-pic"; "relocatable"]
                      else ["static"])
    ∧ length result = (if enable_shared args then 3 else 1).
Proof.
  rewrite (variants_populated cmd _ _ (final_library_types args w)).
  eexists. split; [reflexivity|]. unfold kinds_for.
  by destruct (enable_shared args).
Qed.

(** * Further properties of the version file *)

Lemma append_not_empty (s t : string) :
  t ≠ "" → String.eqb (s ++ t) "" = false.
Proof.
  intros Ht. apply String.eqb_neq. destruct s as [|a s]; [exact Ht|].
  discriminate.
Qed.

Lemma ends_with_sep_append_dots (s : string) :
  ends_with_sep (s ++ "..") = false.
Proof.
  unfold ends_with_sep.
  change (s ++ "..") with (s ++ "." ++ String "."%char "").
  by rewrite <- string_append_assoc, get_last_append.
Qed.

(** X6: the version file is looked up under [source_dir] itself, through
    [..]: its path is [source_dir], a slash unless [source_dir] is empty or
    already ends in one, and [../version_information]. *)
Theorem version_path_shape (cfg : Config) :
  version_path cfg
  = source_dir cfg
    ++ (if String.eqb (source_dir cfg) "" || ends_with_sep (source_dir cfg)
        then "" else "/")
    ++ "../version_information".
Proof.
  unfold version_path. cbn [os_path_join].
  change (String.prefix "/" "..") with false.
  change (String.prefix "/" "version_information") with false.
  cbn match.
  destruct (String.eqb (source_dir cfg) "" || ends_with_sep (source_dir cfg)).
  - rewrite ends_with_sep_append_dots, append_not_empty by discriminate.
    cbn [orb]. by rewrite string_append_assoc.
  - change (source_dir cfg ++ "/" ++ "..")
      with (source_dir cfg ++ "/..").
    replace (source_dir cfg ++ "/..") with ((source_dir cfg ++ "/") ++ "..")
      by apply string_append_assoc.
    rewrite ends_with_sep_append_dots, append_not_empty by discriminate.
    cbn [orb]. by rewrite !string_append_assoc.
Qed.

(** ** [strip] is the trim *)

Lemma lstrip_app_spaces (pre x : list byte) :
  Forall (λ c, is_space c = true) pre → lstrip (pre ++ x) = lstrip x.
Proof.
  induction 1 as [|c pre Hc _ IH]; [reflexivity|].
  cbn [app lstrip]. by rewrite Hc.
Qed.

Lemma lstrip_all_space (b : list byte) :
  Forall (λ c, is_space c = true) b → lstrip b = [].
Proof.
  intros Hb. rewrite <- (app_nil_r b). by rewrite lstrip_app_spaces.
Qed.

Lemma lstrip_keeps (x : list byte) :
  (∀ c, head x = Some c → is_space c = false) → lstrip x = x.
Proof.
  destruct x as [|c x]; [reflexivity|]. intros Hhead.
  cbn [lstrip]. by rewrite (Hhead c).
Qed.

Lemma rstrip_app_spaces (x post : list byte) :
  Forall (λ c, is_space c = true) post → rstrip (x ++ post) = rstrip x.
Proof.
  intros Hpost. unfold rstrip.
  by rewrite reverse_app, lstrip_app_spaces by by apply Forall_reverse.
Qed.

Lemma rstrip_keeps (x : list byte) :
  (∀ c, last x = Some c → is_space c = false) → rstrip x = x.
Proof.
  intros Hlast. unfold rstrip. rewrite lstrip_keeps.
  - apply reverse_involutive.
  - intros c. rewrite head_reverse. apply Hlast.
Qed.

Lemma strip_unique (content v : list byte) :
  is_trim_of content v → strip content = v.
Proof.
  intros (pre & post & -> & Hpre & Hpost & Hhead & Hlast). unfold strip.
  rewrite lstrip_app_spaces by done.
  destruct v as [|c v].
  - cbn [app]. by rewrite lstrip_all_space.
  - rewrite lstrip_keeps.
    + rewrite rstrip_app_spaces by done. by apply rstrip_keeps.
    + intros c' [= <-]. by apply Hhead.
Qed.

(** X7: [strip] is exactly the trim: [v] is what [strip] returns for
    [content] if and only if [content] is [v] between a run of whitespace
    bytes on each side and [v] neither starts nor ends with one.  Whitespace
    inside the version is kept. *)
Theorem strip_iff_trim (content v : list byte) :
  strip content = v ↔ is_trim_of content v.
Proof.
  split; [intros <-; apply strip_is_trim|apply strip_unique].
Qed.

(** X8: stripping twice is stripping once. *)
Theorem strip_idempotent (content : list byte) :
  strip (strip content) = strip content.
Proof.
  apply strip_unique.
  destruct (strip_is_trim content) as (_ & _ & _ & _ & _ & Hhead & Hlast).
  exists [], []. rewrite app_nil_r. by repeat split.
Qed.

(** X9: [strip] returns the empty byte string exactly for a content of
    whitespace only (the empty content included). *)
Theorem strip_empty_iff (content : list byte) :
  strip content = [] ↔ Forall (λ c, is_space c = true) content.
Proof.
  split.
  - intros Hstrip.
    destruct (strip_is_trim content) as (pre & post & Heq & Hpre & Hpost & _).
    rewrite Hstrip in Heq. rewrite Heq. by apply Forall_app.
  - intros Hspace. apply strip_unique.
    exists content, []. cbn [app]. rewrite app_nil_r. by repeat split.
Qed.

(** X10: a version file of whitespace only, or an empty one, is no error:
    [update_config] succeeds and stores the empty byte string as
    [GNATCOLL_VERSION]. *)
Theorem update_config_blank_version
    (args : Args) (w : World) (content : list byte) (g : gmap string value) :
  version_file w = Some content →
  Forall (λ c, is_space c = true) content →
  gprbuild_group w = Some g →
  outcome (update_config args w) = inr tt
  ∧ ∃ g' : gmap string value,
      data (config (final (update_config args w))) !! "gprbuild"
      = Some (Dict g')
      ∧ g' !! "GNATCOLL_VERSION" = Some (Bytes []).
Proof.
  intros Hfile Hspace Hgroup.
  rewrite (update_config_ok args w content g Hfile Hgroup).
  split; [reflexivity|]. eexists. split; [apply gprbuild_with_build|].
  rewrite lookup_insert_ne, lookup_insert_eq by done.
  do 2 f_equal. apply strip_unique.
  exists content, []. cbn [app]. rewrite app_nil_r. by repeat split.
Qed.

Lemma update_config_blank_version_witness :
  version_file world_blank = Some [x20; x09; x0a]
  ∧ Forall (λ c, is_space c = true) [x20; x09; x0a]
  ∧ gprbuild_group world_blank = Some {["TARGET" := Str "x86_64-linux"]}
  ∧ outcome (update_config (mkArgs true false) world_blank) = inr tt
  ∧ ∃ g' : gmap string value,
      data (config (final (update_config (mkArgs true false) world_blank)))
        !! "gprbuild"
      = Some (Dict g')
      ∧ g' !! "GNATCOLL_VERSION" = Some (Bytes []).
Proof.
  assert (Hspace : Forall (λ c, is_space c = true) [x20; x09; x0a])
    by (repeat constructor).
  split; [reflexivity|]. split; [exact Hspace|]. split; [reflexivity|].
  apply (update_config_blank_version (mkArgs true false) world_blank
           [x20; x09; x0a] {["TARGET" := Str "x86_64-linux"]});
    [reflexivity|exact Hspace|reflexivity].
Defined.

(** * Further properties of [variants] *)

(** X11: on a configuration without [library_types], [variants] raises
    [KeyError] for that key, whatever the command, and changes nothing. *)
Theorem variants_without_library_types (cmd : string) (w : World) :
  data (config w) !! "library_types" = None →
  outcome (variants cmd w) = inl (KeyError "library_types")
  ∧ final (variants cmd w) = w.
Proof.
  intros Hkinds. by rewrite (variants_missing cmd w Hkinds).
Qed.

Lemma variants_without_library_types_witness :
  data (config world_fresh) !! "library_types" = None
  ∧ outcome (variants "install" world_fresh) = inl (KeyError "library_types")
  ∧ final (variants "install" world_fresh) = world_fresh.
Proof.
  split; [reflexivity|].
  apply (variants_without_library_types "install" world_fresh).
  reflexivity.
Defined.

Lemma gpr_vars_of_inj (k1 k2 : string) :
  gpr_vars_of k1 = gpr_vars_of k2 → k1 = k2.
Proof.
  intros Heq.
  pose proof (gpr_vars_of_LIBRARY_TYPE k1) as Hk. rewrite Heq in Hk.
  rewrite gpr_vars_of_LIBRARY_TYPE in Hk. by injection Hk.
Qed.

Lemma install_arguments_inj (k1 k2 : string) :
  fst (variant_for "install" k1) = fst (variant_for "install" k2) → k1 = k2.
Proof.
  unfold variant_for. cbn [fst String.eqb]. intros [= Heq].
  exact Heq.
Qed.

(** X12: when the library kinds are pairwise distinct, so are the variable
    maps of the variants, for every command, and so are the argument lists
    of the variants of [install]: no two variants install under the same
    build name. *)
Theorem variants_distinct (cmd : string) (w : World) (l : list string) :
  data (config w) !! "library_types" = Some (StrList l) →
  NoDup l →
  ∃ result : list variant,
    outcome (variants cmd w) = inr result
    ∧ NoDup (snd <$> result)
    ∧ (cmd = "install" → NoDup (fst <$> result)).
Proof.
  intros Hkinds Hnodup. rewrite (variants_populated cmd w l Hkinds).
  eexists. split; [reflexivity|]. rewrite <- !list_fmap_compose. split.
  - apply NoDup_fmap_2_strong; [|exact Hnodup].
    intros k1 k2 _ _. apply gpr_vars_of_inj.
  - intros ->. apply NoDup_fmap_2_strong; [|exact Hnodup].
    intros k1 k2 _ _. apply install_arguments_inj.
Qed.

Lemma variants_distinct_witness :
  data (config world_prod) !! "library_types"
  = Some (StrList shared_library_types)
  ∧ NoDup shared_library_types
  ∧ ∃ result : list variant,
      outcome (variants "install" world_prod) = inr result
      ∧ NoDup (snd <$> result)
      ∧ ("install" = "install" → NoDup (fst <$> result)).
Proof.
  assert (Hnodup : NoDup shared_library_types)
    by (apply (bool_decide_unpack _); reflexivity).
  split; [reflexivity|]. split; [exact Hnodup|].
  apply (variants_distinct "install" world_prod shared_library_types);
    [reflexivity|exact Hnodup].
Defined.

(** X13: the command decides the arguments only: for any two commands the
    variants carry the same variable maps, in the same order. *)
Theorem variants_vars_independent_of_cmd
    (cmd1 cmd2 : string) (w : World) (l : list string) :
  data (config w) !! "library_types" = Some (StrList l) →
  ∃ result1 result2 : list variant,
    outcome (variants cmd1 w) = inr result1
    ∧ outcome (variants cmd2 w) = inr result2
    ∧ snd <$> result1 = snd <$> result2.
Proof.
  intros Hkinds.
  rewrite (variants_populated cmd1 w l Hkinds),
          (variants_populated cmd2 w l Hkinds).
  do 2 eexists. split; [reflexivity|]. split; [reflexivity|].
  by rewrite <- !list_fmap_compose.
Qed.

Lemma variants_vars_independent_of_cmd_witness :
  data (config world_prod) !! "library_types"
  = Some (StrList shared_library_types)
  ∧ ∃ result1 result2 : list variant,
      outcome (variants "install" world_prod) = inr result1
      ∧ outcome (variants "build" world_prod) = inr result2
      ∧ snd <$> result1 = snd <$> result2.
Proof.
  split; [reflexivity|].
  apply (variants_vars_independent_of_cmd "install" "build" world_prod
           shared_library_types).
  reflexivity.
Defined.

(** * Properties of [create] *)

Lemma bool_decide_elem_of_cons (x o : build_option) (seen : list build_option) :
  bool_decide (x ∈ o :: seen) = bool_decide (x = o) || bool_decide (x ∈ seen).
Proof. rewrite <- bool_decide_or. apply bool_decide_ext, elem_of_cons. Qed.

Lemma foldl_store_option (seen : list build_option) (args : Args) :
  enable_shared (foldl store_option args seen)
  = enable_shared args && negb (bool_decide (disable_shared_option ∈ seen))
  ∧ debug (foldl store_option args seen)
    = debug args || bool_decide (debug_option ∈ seen).
Proof.
  revert args. induction seen as [|o seen IH]; intros args.
  - cbn [foldl]. rewrite !bool_decide_eq_false_2 by apply not_elem_of_nil.
    by rewrite andb_true_r, orb_false_r.
  - cbn [foldl]. destruct (IH (store_option args o)) as [-> ->].
    rewrite !bool_decide_elem_of_cons.
    destruct o; cbn [store_option enable_shared debug].
    + rewrite (bool_decide_eq_true_2 (disable_shared_option = _)) by done.
      rewrite (bool_decide_eq_false_2 (debug_option = _)) by done.
      by rewrite andb_false_r.
    + rewrite (bool_decide_eq_true_2 (debug_option = _)) by done.
      rewrite (bool_decide_eq_false_2 (disable_shared_option = _)) by done.
      by rewrite orb_true_r.
Qed.

(** X14: the flags [argparse] hands over depend only on which of the two
    options occur on the command line, not on their order or number:
    [enable_shared] holds exactly when [--disable-shared] does not occur,
    [debug] exactly when [--debug] occurs. *)
Theorem parse_build_options_flags (seen : list build_option) :
  enable_shared (parse_build_options seen)
  = negb (bool_decide (disable_shared_option ∈ seen))
  ∧ debug (parse_build_options seen) = bool_decide (debug_option ∈ seen).
Proof.
  unfold parse_build_options.
  destruct (foldl_store_option seen default_args) as [Hshared Hdebug].
  by rewrite Hshared, Hdebug.
Qed.

(** X15: from the command line to the configuration: after
    [update_config] on the parsed flags, [library_types] is [static] alone
    when [--disable-shared] occurs and the three kinds otherwise (the
    default), and on success [BUILD] is [DEBUG] when [--debug] occurs and
    [PROD] otherwise (the default). *)
Theorem build_options_to_config
    (seen : list build_option) (w : World) (content : list byte)
    (g : gmap string value) :
  version_file w = Some content →
  gprbuild_group w = Some g →
  outcome (update_config (parse_build_options seen) w) = inr tt
  ∧ data (config (final (update_config (parse_build_options seen) w)))
      !! "library_types"
    = Some (StrList (if bool_decide (disable_shared_option ∈ seen)
                     then ["static"]
                     else ["static"; "static-pic"; "relocatable"]))
  ∧ ∃ g' : gmap string value,
      data (config (final (update_config (parse_build_options seen) w)))
        !! "gprbuild"
      = Some (Dict g')
      ∧ g' !! "BUILD"
        = Some (Str (if bool_decide (debug_option ∈ seen)
                     then "DEBUG" else "PROD")).
Proof.
  intros Hfile Hgroup.
  pose proof (foldl_store_option seen default_args) as [Hshared Hdebug].
  fold (parse_build_options seen) in Hshared, Hdebug.
  cbn [default_args enable_shared debug andb orb] in Hshared, Hdebug.
  rewrite final_library_types.
  rewrite (update_config_ok _ w content g Hfile Hgroup).
  split; [reflexivity|]. split.
  - unfold kinds_for. rewrite Hshared.
    by destruct (bool_decide (disable_shared_option ∈ seen)).
  - eexists. split; [apply gprbuild_with_build|].
    rewrite lookup_insert_eq. unfold mode_for. by rewrite Hdebug.
Qed.

Lemma build_options_to_config_witness :
  version_file world_1_2_3 = Some padded_1_2_3
  ∧ gprbuild_group world_1_2_3 = Some ∅
  ∧ outcome (update_config (parse_build_options []) world_1_2_3) = inr tt
  ∧ data (config (final (update_config (parse_build_options [])
                           world_1_2_3)))
      !! "library_types"
    = Some (StrList (if bool_decide (disable_shared_option ∈ [])
                     then ["static"]
                     else ["static"; "static-pic"; "relocatable"]))
  ∧ ∃ g' : gmap string value,
      data (config (final (update_config (parse_build_options [])
                             world_1_2_3)))
        !! "gprbuild"
      = Some (Dict g')
      ∧ g' !! "BUILD"
        = Some (Str (if bool_decide (debug_option ∈ [])
                     then "DEBUG" else "PROD")).
Proof.
  split; [reflexivity|]. split; [reflexivity|].
  apply (build_options_to_config [] world_1_2_3 padded_1_2_3 ∅);
    reflexivity.
Defined.

(** * The read-backs of [update_config] *)

